(** * atlasclient/exceptions.py: the error hierarchy and the response dispatcher

    A shallow embedding of [atlasclient/exceptions.py].  Python objects are
    records, the dynamically typed attribute values are elements of
    [Py.value], classes are the constructors of [HttpKind], dictionaries
    are [gmap]s, and the one function with an effect of its own,
    [handle_response], runs in a small state-and-exception monad whose state
    is the response object it is given. *)

From Stdlib Require Import Ascii.
From stdpp Require Import gmap strings list fin_maps pretty.

(** ** Python values *)

Module Py.

(** The values that reach the attributes of the error objects: [None],
    booleans, integers and strings.  (Floats are left out; nothing in the
    module computes with them.) *)
Inductive value : Type :=
| None_
| Bool (b : bool)
| Int (z : Z)
| Str (s : string).

Global Instance value_eq_dec : EqDecision value.
Proof. solve_decision. Defined.

(** Truth value testing: [None], [False], [0] and [''] are false. *)
Definition truthy (v : value) : bool :=
  match v with
  | None_ => false
  | Bool b => b
  | Int z => negb (z =? 0)%Z
  | Str s => negb (String.eqb s "")
  end.

(** [a or b] *)
Definition or_ (a b : value) : value := if truthy a then a else b.

(** [str(v)] *)
Definition str (v : value) : string :=
  match v with
  | None_ => "None"
  | Bool true => "True"
  | Bool false => "False"
  | Int z => pretty z
  | Str s => s
  end.

(** [fmt % args] for the conversions the module uses: [%s] consumes one
    argument and inserts its [str], [%%] is a literal percent sign.  A
    missing or a left-over argument is a [TypeError] ([None] here), and so
    is any other conversion, which this model does not cover. *)
Fixpoint format (fmt : string) (args : list value) : option string :=
  match fmt with
  | EmptyString =>
      match args with
      | [] => Some EmptyString
      | _ :: _ => None
      end
  | String c fmt' =>
      if Ascii.eqb c "%"%char then
        match fmt' with
        | String d rest =>
            if Ascii.eqb d "s"%char then
              match args with
              | a :: args' => String.append (str a) <$> format rest args'
              | [] => None
              end
            else if Ascii.eqb d "%"%char then String "%"%char <$> format rest args
            else None
        | EmptyString => None
        end
      else String c <$> format fmt' args
  end.

(** [str.lower()] on the ASCII range. *)
Definition ascii_lower (c : ascii) : ascii :=
  let n := Ascii.N_of_ascii c in
  if ((65 <=? n) && (n <=? 90))%N then Ascii.ascii_of_N (n + 32) else c.

Fixpoint lower (s : string) : string :=
  match s with
  | EmptyString => EmptyString
  | String c s' => String (ascii_lower c) (lower s')
  end.

End Py.

(** ** The logger

    [LOG = logging.getLogger('pyatlasclient')]; the state of the logger is
    the list of the records emitted at error severity, oldest first. *)

Definition Log := list string.

Definition LOG_error (msg : string) (log : Log) : Log := log ++ [msg].

(** ** ClientError *)

Record ClientErrorObj := { ce_message : Py.value }.

Definition ClientError_message : Py.value := Py.Str "Unknown Error".

Definition ClientError___init__ (message : Py.value) : ClientErrorObj :=
  {| ce_message := Py.or_ message ClientError_message |}.

(** [__str__] formats, logs, and returns the formatted message. *)
Definition ClientError___str__ (self : ClientErrorObj) (log : Log)
  : option string * Log :=
  match Py.format "Unexpected client-side error: %s" [ce_message self] with
  | Some exception_message => (Some exception_message, LOG_error exception_message log)
  | None => (None, log)
  end.

(** ** Timeout *)

Record TimeoutObj := { to_timeout : Py.value; to_message : Py.value }.

Definition Timeout_message : Py.value := Py.Str "Operation timeout exceeded".

Definition Timeout___init__ (timeout message : Py.value) : TimeoutObj :=
  {| to_timeout := timeout; to_message := Py.or_ message Timeout_message |}.

Definition Timeout___str__ (self : TimeoutObj) (log : Log)
  : option string * Log :=
  match Py.format "Timed out after %s seconds: %s"
          [to_timeout self; to_message self] with
  | Some exception_message => (Some exception_message, LOG_error exception_message log)
  | None => (None, log)
  end.

(** ** Failed *)

(** The model collaborator: what [Failed.__str__] reads from it, the name of
    its class and its [identifier]. *)
Record Model := { model_class_name : string; model_identifier : Py.value }.

Record FailedObj := { fl_model : Model; fl_message : Py.value }.

Definition Failed_message : Py.value := Py.Str "Operation failed to complete".

Definition Failed___init__ (model : Model) (message : Py.value) : FailedObj :=
  {| fl_model := model; fl_message := Py.or_ message Failed_message |}.

Definition Failed___str__ (self : FailedObj) (log : Log)
  : option string * Log :=
  match Py.format "Failure detected for %s/%s: %s"
          [Py.Str (model_class_name (fl_model self));
           model_identifier (fl_model self);
           fl_message self] with
  | Some exception_message => (Some exception_message, LOG_error exception_message log)
  | None => (None, log)
  end.

(** ** HttpError and its subclasses *)

Inductive HttpKind : Type :=
| HttpError
| BadRequest
| Unauthorized
| Forbidden
| NotFound
| MethodNotAllowed
| Conflict
| RateLimitExceeded
| ServerError
| MethodNotImplemented
| ServerUnavailable.

Global Instance HttpKind_eq_dec : EqDecision HttpKind.
Proof. solve_decision. Defined.

(** The class attribute [code]. *)
Definition cls_code (cls : HttpKind) : Z :=
  match cls with
  | HttpError => 500
  | BadRequest => 400
  | Unauthorized => 401
  | Forbidden => 403
  | NotFound => 404
  | MethodNotAllowed => 405
  | Conflict => 409
  | RateLimitExceeded => 429
  | ServerError => 500
  | MethodNotImplemented => 501
  | ServerUnavailable => 503
  end.

(** The class attribute [message]. *)
Definition cls_message (cls : HttpKind) : string :=
  match cls with
  | HttpError => "Unknown Error"
  | BadRequest => "Bad request"
  | Unauthorized => "Unauthorized"
  | Forbidden => "Forbidden"
  | NotFound => "Not found"
  | MethodNotAllowed => "Method Not Allowed"
  | Conflict => "Conflict"
  | RateLimitExceeded => "Rate limit"
  | ServerError => "Internal Server Error"
  | MethodNotImplemented => "Not Implemented"
  | ServerUnavailable => "Service Unavailable"
  end.

(** An instance: [err_class] is [self.__class__], the rest are the instance
    attributes [__init__] sets. *)
Record HttpErrorObj := {
  err_class : HttpKind;
  err_code : Py.value;
  err_message : Py.value;
  err_details : Py.value;
  err_url : Py.value;
  err_method : Py.value;
  err_retry_after : Py.value
}.

(** [HttpError.__init__], inherited unchanged by every subclass; [cls] is the
    class being instantiated. *)
Definition HttpError___init__ (cls : HttpKind)
    (code message details url method retry_after : Py.value) : HttpErrorObj :=
  {| err_class := cls;
     err_code := Py.or_ code (Py.Int (cls_code cls));
     err_message := Py.or_ message (Py.Str (cls_message cls));
     err_details := details;
     err_url := url;
     err_method := method;
     err_retry_after := retry_after |}.

Definition HttpError___str__ (self : HttpErrorObj) (log : Log)
  : option string * Log :=
  let params := [err_method self; err_url self; err_message self;
                 err_code self; err_details self] in
  match Py.format "HTTP request failed for %s %s: %s %s: %s" params with
  | Some exception_message => (Some exception_message, LOG_error exception_message log)
  | None => (None, log)
  end.

(** The call of [cls] with the dictionary [kwargs] unpacked into keyword
    arguments: a keyword that is not given takes its default, [None]. *)
Definition HttpError_call (cls : HttpKind) (kwargs : gmap string Py.value)
  : HttpErrorObj :=
  let arg name := default Py.None_ (kwargs !! name) in
  HttpError___init__ cls (arg "code") (arg "message") (arg "details")
    (arg "url") (arg "method") (arg "retry_after").

(** [HttpError.__subclasses__()]: the direct subclasses, in the order of
    their definition. *)
Definition HttpError___subclasses__ : list HttpKind :=
  [BadRequest; Unauthorized; Forbidden; NotFound; MethodNotAllowed; Conflict;
   RateLimitExceeded; ServerError; MethodNotImplemented; ServerUnavailable].

(** [dict((c.code, c) for c in HttpError.__subclasses__())]: the pairs are
    inserted one after the other, a later one replacing an earlier one with
    the same key. *)
Definition dict_of_pairs {K V} `{Countable K} (pairs : list (K * V)) : gmap K V :=
  foldl (λ d kv, <[kv.1 := kv.2]> d) ∅ pairs.

Definition _status_to_exception_type : gmap Z HttpKind :=
  dict_of_pairs ((λ c, (cls_code c, c)) <$> HttpError___subclasses__).

(** ** The response

    [handle_response] is "given a requests.Response object".  What it reads
    of it: [status_code], [text], [headers] and [request.method],
    [request.url].  The [headers] of a [requests.Response] are a
    [requests.structures.CaseInsensitiveDict] (or absent); that class belongs
    to the requests library, and is embedded here as far as the dispatcher
    uses it. *)

Module CaseInsensitiveDict.

(** [_store] maps the lowercased key to the pair of the key as it was
    given and the value. *)
Record t := { _store : gmap string (string * string) }.

Definition empty : t := {| _store := ∅ |}.

Definition __setitem__ (key value : string) (self : t) : t :=
  {| _store := <[Py.lower key := (key, value)]> (_store self) |}.

(** [None] is the [KeyError]. *)
Definition __getitem__ (key : string) (self : t) : option string :=
  snd <$> _store self !! Py.lower key.

(** [Mapping.__contains__]: [self[key]] raises no [KeyError]. *)
Definition __contains__ (key : string) (self : t) : bool :=
  match __getitem__ key self with
  | Some _ => true
  | None => false
  end.

(** [Mapping.get], with its default [None]. *)
Definition get (key : string) (self : t) : Py.value :=
  match __getitem__ key self with
  | Some v => Py.Str v
  | None => Py.None_
  end.

Definition __len__ (self : t) : nat := size (_store self).

(** Truth value of a mapping: it is not empty. *)
Definition truthy (self : t) : bool := negb (__len__ self =? 0)%nat.

(** The (key, value) pairs, keys as they were given. *)
Definition items (self : t) : list (string * string) :=
  (map_to_list (_store self)).*2.

(** [CaseInsensitiveDict(data)]: every pair of [data] is set in turn. *)
Definition __init__ (data : list (string * string)) : t :=
  foldl (λ d kv, __setitem__ kv.1 kv.2 d) empty data.

(** The invariant of the class: an entry sits under the lowercased form of
    its own key. *)
Definition wf (self : t) : Prop :=
  ∀ lk kv, _store self !! lk = Some kv → lk = Py.lower kv.1.

End CaseInsensitiveDict.

Record Request := { request_method : Py.value; request_url : Py.value }.

Record Response := {
  status_code : Z;
  text : Py.value;
  headers : option CaseInsensitiveDict.t;
  request : Request
}.

(** Truth value of [response.headers]: [None] and the empty mapping are
    false. *)
Definition headers_truthy (h : option CaseInsensitiveDict.t) : bool :=
  match h with
  | Some d => CaseInsensitiveDict.truthy d
  | None => false
  end.

(** [key in response.headers], evaluated only when [response.headers] is
    true. *)
Definition headers_contains (key : string) (h : option CaseInsensitiveDict.t) : bool :=
  match h with
  | Some d => CaseInsensitiveDict.__contains__ key d
  | None => false
  end.

Definition headers_get (key : string) (h : option CaseInsensitiveDict.t) : Py.value :=
  match h with
  | Some d => CaseInsensitiveDict.get key d
  | None => Py.None_
  end.

(** ** The monad of the dispatcher

    A computation is given the response object, and ends by returning a value
    or by raising an [HttpError]; it hands back the response object as it has
    left it. *)

Inductive outcome (A : Type) : Type :=
| Return (a : A)
| Raise (e : HttpErrorObj).
Arguments Return {A} a.
Arguments Raise {A} e.

Definition M (A : Type) : Type := Response → outcome A * Response.

Global Instance M_ret : MRet M := λ A a response, (Return a, response).

Global Instance M_bind : MBind M := λ A B f m response,
  match m response with
  | (Return a, response') => f a response'
  | (Raise e, response') => (Raise e, response')
  end.

Definition raise {A} (e : HttpErrorObj) : M A := λ response, (Raise e, response).

(** Reading an attribute of the response. *)
Definition getattr {A} (attr : Response → A) : M A :=
  λ response, (Return (attr response), response).

(** ** handle_response *)

Definition handle_response : M unit :=
  status ← getattr status_code;
  if bool_decide (status < 400)%Z then mret tt
  else
    let cls := default HttpError (_status_to_exception_type !! status) in
    code ← getattr status_code;
    method ← getattr (request_method ∘ request);
    url ← getattr (request_url ∘ request);
    details ← getattr text;
    let kwargs : gmap string Py.value :=
      <["details" := details]> (<["url" := url]> (<["method" := method]>
        (<["code" := Py.Int code]> ∅))) in
    h ← getattr headers;
    has ← (if headers_truthy h
           then h' ← getattr headers; mret (headers_contains "retry-after" h')
           else mret false);
    kwargs' ← (if has : bool
               then h'' ← getattr headers;
                    mret (<["retry_after" := headers_get "retry-after" h'']> kwargs)
               else mret kwargs);
    raise (HttpError_call cls kwargs').

(** The value of [kwargs.get('retry_after')] at the raise: the header when
    the headers are true and have the key, no entry otherwise. *)
Definition retry_after_of (h : option CaseInsensitiveDict.t) : Py.value :=
  if headers_truthy h && headers_contains "retry-after" h
  then headers_get "retry-after" h
  else Py.None_.

(** ** The documented status codes, and sample responses *)

(** The status code each subclass stands for, as its docstring names it
    ("HTTP 404 - Not found"). *)
Definition section3_table : list (Z * HttpKind) :=
  [(400, BadRequest); (401, Unauthorized); (403, Forbidden); (404, NotFound);
   (405, MethodNotAllowed); (409, Conflict); (429, RateLimitExceeded);
   (500, ServerError); (501, MethodNotImplemented); (503, ServerUnavailable)]%Z.

(** Responses to run the dispatcher on. *)
Definition response_404 : Response :=
  {| status_code := 404;
     text := Py.Str "no such entity";
     headers := None;
     request := {| request_method := Py.Str "GET";
                   request_url := Py.Str "http://atlas/api/entities/1" |} |}.

Definition response_418 : Response :=
  {| status_code := 418;
     text := Py.Str "teapot";
     headers := Some CaseInsensitiveDict.empty;
     request := {| request_method := Py.Str "POST";
                   request_url := Py.Str "http://atlas/api/brew" |} |}.

Definition response_429 : Response :=
  {| status_code := 429;
     text := Py.Str "slow down";
     headers := Some (CaseInsensitiveDict.__init__
                        [("Content-Type", "text/plain"); ("Retry-After", "120")]);
     request := {| request_method := Py.Str "GET";
                   request_url := Py.Str "http://atlas/api/types" |} |}.

(** * Properties *)

(** ** The definitions at work *)

Example timeout_30 :
  (Timeout___str__ (Timeout___init__ (Py.Int 30) Py.None_) []).1
  = Some "Timed out after 30 seconds: Operation timeout exceeded".
Proof. reflexivity. Qed.

Example registry_404 : _status_to_exception_type !! 404%Z = Some NotFound.
Proof. reflexivity. Qed.


(** ** Values and formatting *)

Lemma append_empty_r (s : string) : s +:+ "" = s.
Proof.
  induction s as [|c s IH]; [done|].
  change (String c (s +:+ "") = String c s). by f_equal.
Qed.

Lemma or_truthy (a b : Py.value) : Py.truthy a = true → Py.or_ a b = a.
Proof. unfold Py.or_. by intros ->. Qed.

Lemma or_falsy (a b : Py.value) : Py.truthy a = false → Py.or_ a b = b.
Proof. unfold Py.or_. by intros ->. Qed.

Lemma or_None (b : Py.value) : Py.or_ Py.None_ b = b.
Proof. done. Qed.

(** The values that are false are [None], [False], [0] and ['']. *)
Lemma truthy_false_inv (v : Py.value) :
  Py.truthy v = false →
  v = Py.None_ ∨ v = Py.Bool false ∨ v = Py.Int 0 ∨ v = Py.Str "".
Proof.
  destruct v as [|[]|z|s]; simpl; intros Hv; try done; auto.
  - apply negb_false_iff, Z.eqb_eq in Hv. subst. auto.
  - apply negb_false_iff, String.eqb_eq in Hv. subst. auto.
Qed.

Lemma truthy_Int (z : Z) : z ≠ 0%Z → Py.truthy (Py.Int z) = true.
Proof. intros Hz. simpl. apply negb_true_iff, Z.eqb_neq, Hz. Qed.

Lemma lower_retry_after : Py.lower "retry-after" = "retry-after".
Proof. reflexivity. Qed.

Example lower_mixed : Py.lower "Retry-After" = "retry-after".
Proof. reflexivity. Qed.

(** ** Rendering *)

Section rendering.
Variable log : Log.

Lemma ClientError_render (self : ClientErrorObj) :
  ClientError___str__ self log
  = (let m := "Unexpected client-side error: " +:+ Py.str (ce_message self) in
     (Some m, log ++ [m])).
Proof.
  unfold ClientError___str__, LOG_error. cbn.
  by rewrite append_empty_r.
Qed.

Lemma Timeout_render (self : TimeoutObj) :
  Timeout___str__ self log
  = (let m := "Timed out after " +:+ Py.str (to_timeout self) +:+ " seconds: "
              +:+ Py.str (to_message self) in
     (Some m, log ++ [m])).
Proof.
  unfold Timeout___str__, LOG_error. cbn.
  by rewrite append_empty_r.
Qed.

Lemma Failed_render (self : FailedObj) :
  Failed___str__ self log
  = (let m := "Failure detected for " +:+ model_class_name (fl_model self)
              +:+ "/" +:+ Py.str (model_identifier (fl_model self))
              +:+ ": " +:+ Py.str (fl_message self) in
     (Some m, log ++ [m])).
Proof.
  unfold Failed___str__, LOG_error. cbn.
  by rewrite append_empty_r.
Qed.

Lemma HttpError_render (self : HttpErrorObj) :
  HttpError___str__ self log
  = (let m := "HTTP request failed for " +:+ Py.str (err_method self)
              +:+ " " +:+ Py.str (err_url self)
              +:+ ": " +:+ Py.str (err_message self)
              +:+ " " +:+ Py.str (err_code self)
              +:+ ": " +:+ Py.str (err_details self) in
     (Some m, log ++ [m])).
Proof.
  unfold HttpError___str__, LOG_error. cbn.
  by rewrite append_empty_r.
Qed.

End rendering.

(** ** The dispatcher, step by step *)

Lemma handle_response_success (response : Response) :
  (status_code response < 400)%Z →
  handle_response response = (Return tt, response).
Proof.
  intros Hlt. unfold handle_response, mbind, M_bind, getattr. simpl.
  by rewrite bool_decide_eq_true_2.
Qed.

Lemma handle_response_raises (response : Response) :
  (400 ≤ status_code response)%Z →
  handle_response response
  = (Raise (HttpError___init__
              (default HttpError (_status_to_exception_type !! status_code response))
              (Py.Int (status_code response))
              Py.None_
              (text response)
              (request_url (request response))
              (request_method (request response))
              (retry_after_of (headers response))),
     response).
Proof.
  intros Hge. unfold handle_response, mbind, M_bind, getattr, raise. simpl.
  rewrite bool_decide_eq_false_2 by lia.
  unfold retry_after_of, mret, M_ret, HttpError_call.
  destruct (headers_truthy (headers response)); simpl.
  - destruct (headers_contains "retry-after" (headers response)); simpl;
      by simplify_map_eq.
  - by simplify_map_eq.
Qed.

(** ** The headers *)

Lemma CaseInsensitiveDict_items_lookup (d : CaseInsensitiveDict.t) (k v : string) :
  (k, v) ∈ CaseInsensitiveDict.items d
  ↔ ∃ lk, CaseInsensitiveDict._store d !! lk = Some (k, v).
Proof.
  unfold CaseInsensitiveDict.items. rewrite list_elem_of_fmap. split.
  - intros [[lk kv] [-> Hin]]. exists lk. by apply elem_of_map_to_list in Hin.
  - intros [lk Hlk]. exists (lk, (k, v)). split; [done|].
    by apply elem_of_map_to_list.
Qed.

Lemma CaseInsensitiveDict_empty_wf : CaseInsensitiveDict.wf CaseInsensitiveDict.empty.
Proof. intros lk kv. simpl. by rewrite lookup_empty. Qed.

Lemma CaseInsensitiveDict_setitem_wf (key value : string) (d : CaseInsensitiveDict.t) :
  CaseInsensitiveDict.wf d →
  CaseInsensitiveDict.wf (CaseInsensitiveDict.__setitem__ key value d).
Proof.
  intros Hwf lk kv. simpl. rewrite lookup_insert. case_decide as Hk.
  - intros [= <-]. by subst.
  - apply Hwf.
Qed.

Lemma CaseInsensitiveDict_init_wf (data : list (string * string)) :
  CaseInsensitiveDict.wf (CaseInsensitiveDict.__init__ data).
Proof.
  unfold CaseInsensitiveDict.__init__.
  generalize CaseInsensitiveDict_empty_wf.
  generalize CaseInsensitiveDict.empty.
  induction data as [|[k v] data IH]; intros d Hd; simpl; [done|].
  apply IH. by apply CaseInsensitiveDict_setitem_wf.
Qed.

(** A key is found whatever its casing. *)
Lemma CaseInsensitiveDict_getitem_casing (k1 k2 : string) (d : CaseInsensitiveDict.t) :
  Py.lower k1 = Py.lower k2 →
  CaseInsensitiveDict.__getitem__ k1 d = CaseInsensitiveDict.__getitem__ k2 d.
Proof. unfold CaseInsensitiveDict.__getitem__. by intros ->. Qed.

(** With a header whose name is [retry-after] in some casing, the headers
    are true, have the key and give the value of that header. *)
Lemma headers_with_retry_after (d : CaseInsensitiveDict.t) (k v : string) :
  CaseInsensitiveDict.wf d →
  (k, v) ∈ CaseInsensitiveDict.items d →
  Py.lower k = "retry-after" →
  retry_after_of (Some d) = Py.Str v.
Proof.
  intros Hwf Hin Hk.
  apply CaseInsensitiveDict_items_lookup in Hin as [lk Hlk].
  pose proof (Hwf _ _ Hlk) as ->. simpl in Hlk. rewrite Hk in Hlk.
  assert (CaseInsensitiveDict.truthy d = true) as Ht.
  { unfold CaseInsensitiveDict.truthy, CaseInsensitiveDict.__len__.
    apply negb_true_iff, Nat.eqb_neq. intros Hsz.
    apply map_size_empty_iff in Hsz. rewrite Hsz in Hlk.
    by rewrite lookup_empty in Hlk. }
  unfold retry_after_of, headers_truthy, headers_contains, headers_get.
  unfold CaseInsensitiveDict.__contains__, CaseInsensitiveDict.get,
    CaseInsensitiveDict.__getitem__.
  rewrite Ht, lower_retry_after, Hlk. done.
Qed.

(** Without such a header, or without headers, there is no value. *)
Lemma headers_without_retry_after (d : CaseInsensitiveDict.t) :
  CaseInsensitiveDict.wf d →
  (∀ k v, (k, v) ∈ CaseInsensitiveDict.items d → Py.lower k ≠ "retry-after") →
  retry_after_of (Some d) = Py.None_.
Proof.
  intros Hwf Hno.
  unfold retry_after_of, headers_truthy, headers_contains, headers_get.
  unfold CaseInsensitiveDict.__contains__, CaseInsensitiveDict.get,
    CaseInsensitiveDict.__getitem__.
  rewrite lower_retry_after.
  destruct (CaseInsensitiveDict._store d !! "retry-after") as [[k v]|] eqn:Hlk;
    simpl; [|by rewrite andb_false_r].
  exfalso. apply (Hno k v).
  - apply CaseInsensitiveDict_items_lookup. by exists "retry-after".
  - symmetry. apply (Hwf _ _ Hlk).
Qed.

Lemma headers_empty_no_retry_after :
  retry_after_of (Some CaseInsensitiveDict.empty) = Py.None_.
Proof. reflexivity. Qed.

Lemma headers_absent_no_retry_after : retry_after_of None = Py.None_.
Proof. reflexivity. Qed.

(** ** The registry *)

Lemma registry_inserts :
  _status_to_exception_type
  = <[503%Z := ServerUnavailable]> (<[501%Z := MethodNotImplemented]>
    (<[500%Z := ServerError]> (<[429%Z := RateLimitExceeded]>
    (<[409%Z := Conflict]> (<[405%Z := MethodNotAllowed]>
    (<[404%Z := NotFound]> (<[403%Z := Forbidden]>
    (<[401%Z := Unauthorized]> (<[400%Z := BadRequest]> ∅))))))))).
Proof. reflexivity. Qed.

Lemma registry_codes :
  cls_code <$> HttpError___subclasses__
  = [400; 401; 403; 404; 405; 409; 429; 500; 501; 503]%Z.
Proof. reflexivity. Qed.

Lemma registry_dom :
  dom _status_to_exception_type
  = list_to_set (cls_code <$> HttpError___subclasses__).
Proof.
  rewrite registry_inserts, registry_codes.
  rewrite !dom_insert_L, dom_empty_L. simpl. set_solver.
Qed.

Lemma registry_lookup_subclass (cls : HttpKind) :
  cls ∈ HttpError___subclasses__ →
  _status_to_exception_type !! cls_code cls = Some cls.
Proof.
  unfold HttpError___subclasses__. rewrite !elem_of_cons, elem_of_nil.
  intros Hcls. repeat (destruct Hcls as [-> | Hcls]; [reflexivity|]). done.
Qed.

Lemma registry_lookup_inv (code : Z) (cls : HttpKind) :
  _status_to_exception_type !! code = Some cls →
  cls ∈ HttpError___subclasses__ ∧ cls_code cls = code.
Proof.
  rewrite registry_inserts. unfold HttpError___subclasses__.
  repeat (rewrite lookup_insert; case_decide;
          [intros [= <-]; subst code; split; [set_solver | reflexivity] |]).
  by rewrite lookup_empty.
Qed.

Lemma subclasses_all (cls : HttpKind) :
  cls ∈ HttpError___subclasses__ ↔ cls ≠ HttpError.
Proof.
  unfold HttpError___subclasses__. split.
  - intros Hin ->. rewrite !elem_of_cons, elem_of_nil in Hin.
    repeat (destruct Hin as [Hin | Hin]; [discriminate|]). done.
  - intros Hne. destruct cls; [done | ..]; set_solver.
Qed.

(** ** The claims *)

(** C1: for every status code of the table (400, 401, 403, 404, 405, 409,
    429, 500, 501, 503), [handle_response] on a response with that status
    code raises the class the table gives for it, and the [code] of the
    raised error is that status code. *)
Theorem handle_response_raises_registered
    (response : Response) (code : Z) (cls : HttpKind) :
  (code, cls) ∈ section3_table →
  status_code response = code →
  ∃ e, (handle_response response).1 = Raise e
       ∧ err_class e = cls ∧ err_code e = Py.Int code.
Proof.
  unfold section3_table. rewrite !elem_of_cons, elem_of_nil.
  intros Hin Hcode.
  repeat (destruct Hin as [[= -> ->] | Hin];
          [rewrite handle_response_raises by lia; rewrite Hcode;
           eexists; split; [reflexivity|]; split; reflexivity |]).
  done.
Qed.

Lemma handle_response_raises_registered_witness :
  ∃ e, (handle_response response_404).1 = Raise e
       ∧ err_class e = NotFound ∧ err_code e = Py.Int 404.
Proof.
  apply (handle_response_raises_registered response_404 404 NotFound).
  - unfold section3_table. apply (bool_decide_unpack _). vm_compute. exact I.
  - reflexivity.
Defined.

(** C2: [handle_response] returns normally exactly when the status code is
    below 400; from 400 on it raises an error of the [HttpError] family and
    returns no value. *)
Theorem handle_response_returns_iff (response : Response) :
  ((handle_response response).1 = Return tt ↔ (status_code response < 400)%Z)
  ∧ ((400 ≤ status_code response)%Z →
     ∃ e, (handle_response response).1 = Raise e
          ∧ (err_class e = HttpError ∨ err_class e ∈ HttpError___subclasses__)).
Proof.
  split.
  - split.
    + intros Hret. destruct (decide (status_code response < 400)%Z) as [|Hge]; [done|].
      rewrite handle_response_raises in Hret by lia. discriminate.
    + intros Hlt. by rewrite handle_response_success.
  - intros Hge. rewrite handle_response_raises by done.
    eexists. split; [reflexivity|]. simpl.
    destruct (_status_to_exception_type !! status_code response) as [cls|] eqn:Hcls;
      simpl; [right | by left].
    by apply registry_lookup_inv in Hcls as [? _].
Qed.

(** C3: for a status code from 400 on that the registry does not hold (418,
    say), [handle_response] raises the base class [HttpError] itself, with
    [code] equal to the status code. *)
Theorem handle_response_raises_generic (response : Response) :
  (400 ≤ status_code response)%Z →
  status_code response ∉ dom _status_to_exception_type →
  ∃ e, (handle_response response).1 = Raise e
       ∧ err_class e = HttpError
       ∧ err_code e = Py.Int (status_code response).
Proof.
  intros Hge Hdom. apply not_elem_of_dom in Hdom.
  rewrite handle_response_raises by done. rewrite Hdom.
  eexists. split; [reflexivity|]. split; [reflexivity|]. simpl.
  apply or_truthy, truthy_Int. lia.
Qed.

Lemma handle_response_raises_generic_witness :
  ∃ e, (handle_response response_418).1 = Raise e
       ∧ err_class e = HttpError
       ∧ err_code e = Py.Int 418.
Proof.
  apply (handle_response_raises_generic response_418).
  - simpl. lia.
  - apply (bool_decide_unpack _). vm_compute. exact I.
Defined.

(** C4: the error raised for a status code from 400 on has [details] equal
    to [response.text], [method] equal to [response.request.method] and [url]
    equal to [response.request.url]. *)
Theorem handle_response_propagates_context (response : Response) :
  (400 ≤ status_code response)%Z →
  ∃ e, (handle_response response).1 = Raise e
       ∧ err_details e = text response
       ∧ err_method e = request_method (request response)
       ∧ err_url e = request_url (request response).
Proof.
  intros Hge. rewrite handle_response_raises by done.
  eexists. by split; [reflexivity|].
Qed.

Lemma handle_response_propagates_context_witness :
  ∃ e, (handle_response response_404).1 = Raise e
       ∧ err_details e = Py.Str "no such entity"
       ∧ err_method e = Py.Str "GET"
       ∧ err_url e = Py.Str "http://atlas/api/entities/1".
Proof.
  apply (handle_response_propagates_context response_404). simpl. lia.
Defined.

(** C5: for a status code from 400 on, when the headers have a [retry-after]
    header in whatever casing, [retry_after] of the raised error is the value
    of that header; when there is no such header, or the headers are empty or
    absent, [retry_after] is [None], the default of the constructor. *)
Theorem handle_response_retry_after (response : Response) :
  (400 ≤ status_code response)%Z →
  (∀ h, headers response = Some h → CaseInsensitiveDict.wf h) →
  ∃ e, (handle_response response).1 = Raise e
       ∧ (∀ h k v, headers response = Some h →
                   (k, v) ∈ CaseInsensitiveDict.items h →
                   Py.lower k = "retry-after" →
                   err_retry_after e = Py.Str v)
       ∧ (headers response = None
          ∨ headers response = Some CaseInsensitiveDict.empty
          ∨ (∃ h, headers response = Some h
                  ∧ ∀ k v, (k, v) ∈ CaseInsensitiveDict.items h →
                           Py.lower k ≠ "retry-after") →
          err_retry_after e = Py.None_).
Proof.
  intros Hge Hwf. rewrite handle_response_raises by done.
  eexists. split; [reflexivity|]. simpl. split.
  - intros h k v Hh Hin Hk. rewrite Hh.
    by apply (headers_with_retry_after h k v); [apply Hwf| |].
  - intros [Hh | [Hh | (h & Hh & Hno)]]; rewrite Hh; [done..|].
    by apply headers_without_retry_after; [apply Hwf|].
Qed.

Lemma handle_response_retry_after_witness :
  (∃ e, (handle_response response_429).1 = Raise e
        ∧ err_retry_after e = Py.Str "120")
  ∧ (∃ e, (handle_response response_404).1 = Raise e
          ∧ err_retry_after e = Py.None_).
Proof.
  split.
  - destruct (handle_response_retry_after response_429) as (e & He & Hyes & _).
    + simpl. lia.
    + intros h [= <-]. apply CaseInsensitiveDict_init_wf.
    + exists e. split; [exact He|].
      apply (Hyes _ "Retry-After" "120" eq_refl); [|reflexivity].
      apply (bool_decide_unpack _). vm_compute. exact I.
  - destruct (handle_response_retry_after response_404) as (e & He & _ & Hno).
    + simpl. lia.
    + intros h [=].
    + exists e. split; [exact He|]. apply Hno. by left.
Defined.

(** C6: a constructor call that omits [message], or [code], takes the value
    from the class attribute of the class being instantiated, and not from
    [HttpError]: [NotFound()] has [code] 404 and [message] "Not found", not
    500 and "Unknown Error". *)
Theorem omitted_fields_take_class_defaults :
  (∀ cls code details url method retry_after,
     err_message (HttpError___init__ cls code Py.None_ details url method retry_after)
     = Py.Str (cls_message cls))
  ∧ (∀ cls message details url method retry_after,
       err_code (HttpError___init__ cls Py.None_ message details url method retry_after)
       = Py.Int (cls_code cls))
  ∧ (∀ cls, err_class (HttpError_call cls ∅) = cls
            ∧ err_code (HttpError_call cls ∅) = Py.Int (cls_code cls)
            ∧ err_message (HttpError_call cls ∅) = Py.Str (cls_message cls))
  ∧ err_code (HttpError_call NotFound ∅) = Py.Int 404
  ∧ err_message (HttpError_call NotFound ∅) = Py.Str "Not found"
  ∧ err_code (HttpError_call NotFound ∅) ≠ Py.Int (cls_code HttpError)
  ∧ err_message (HttpError_call NotFound ∅) ≠ Py.Str (cls_message HttpError).
Proof. by repeat (split; [done|]). Qed.

(** C7: the display string of an error is a function of its fields alone, and
    is the template of its class with the [str] of the fields in the places
    of the placeholders; [Timeout(timeout=30)] renders as "Timed out after 30
    seconds: Operation timeout exceeded". *)
Theorem rendering_follows_templates :
  (∀ (e : ClientErrorObj) (log : Log),
     (ClientError___str__ e log).1
     = Some ("Unexpected client-side error: " +:+ Py.str (ce_message e)))
  ∧ (∀ (e : TimeoutObj) (log : Log),
       (Timeout___str__ e log).1
       = Some ("Timed out after " +:+ Py.str (to_timeout e) +:+ " seconds: "
               +:+ Py.str (to_message e)))
  ∧ (∀ log : Log,
       (Timeout___str__ (Timeout___init__ (Py.Int 30) Py.None_) log).1
       = Some "Timed out after 30 seconds: Operation timeout exceeded")
  ∧ (∀ (e : FailedObj) (log : Log),
       (Failed___str__ e log).1
       = Some ("Failure detected for " +:+ model_class_name (fl_model e)
               +:+ "/" +:+ Py.str (model_identifier (fl_model e))
               +:+ ": " +:+ Py.str (fl_message e)))
  ∧ (∀ (e : HttpErrorObj) (log : Log),
       (HttpError___str__ e log).1
       = Some ("HTTP request failed for " +:+ Py.str (err_method e)
               +:+ " " +:+ Py.str (err_url e)
               +:+ ": " +:+ Py.str (err_message e)
               +:+ " " +:+ Py.str (err_code e)
               +:+ ": " +:+ Py.str (err_details e))).
Proof.
  split; [|split; [|split; [|split]]]; intros.
  - by rewrite ClientError_render.
  - by rewrite Timeout_render.
  - by rewrite Timeout_render.
  - by rewrite Failed_render.
  - by rewrite HttpError_render.
Qed.

(** C8, as the claim has it, fails: the subclasses of [HttpError] are ten,
    not twelve. *)
Lemma twelve_variants_refuted :
  ¬ (length HttpError___subclasses__ = 12
     ∧ NoDup (cls_code <$> HttpError___subclasses__)
     ∧ dom _status_to_exception_type
       = list_to_set (cls_code <$> HttpError___subclasses__)).
Proof. intros [Hlen _]. vm_compute in Hlen. discriminate. Qed.

(** C8, amended: exactly ten subclasses of [HttpError] are declared, each
    with a status code of its own, and the registry built from
    [HttpError.__subclasses__()] is a mapping without collisions whose keys
    are exactly the [code] attributes of those subclasses. *)
Theorem registry_of_ten_variants :
  length HttpError___subclasses__ = 10
  ∧ NoDup HttpError___subclasses__
  ∧ (∀ cls : HttpKind, cls = HttpError ∨ cls ∈ HttpError___subclasses__)
  ∧ cls_code <$> HttpError___subclasses__
    = [400; 401; 403; 404; 405; 409; 429; 500; 501; 503]%Z
  ∧ NoDup (cls_code <$> HttpError___subclasses__)
  ∧ dom _status_to_exception_type
    = list_to_set (cls_code <$> HttpError___subclasses__)
  ∧ size _status_to_exception_type = 10
  ∧ (∀ (code : Z) (cls : HttpKind),
       _status_to_exception_type !! code = Some cls
       ↔ cls ∈ HttpError___subclasses__ ∧ cls_code cls = code).
Proof.
  split; [reflexivity|].
  split; [apply (bool_decide_unpack _); vm_compute; exact I|].
  split.
  { intros cls. destruct (decide (cls = HttpError)) as [|Hne]; [by left|].
    right. by apply subclasses_all. }
  split; [reflexivity|].
  split; [apply (bool_decide_unpack _); vm_compute; exact I|].
  split; [apply registry_dom|].
  split; [reflexivity|].
  intros code cls. split.
  - apply registry_lookup_inv.
  - intros [Hin <-]. by apply registry_lookup_subclass.
Qed.

(** C9: [handle_response] leaves the response as it was, whether it returns
    or raises. *)
Theorem handle_response_preserves_response (response : Response) :
  (handle_response response).2 = response.
Proof.
  destruct (decide (status_code response < 400)%Z) as [Hlt | Hge].
  - by rewrite handle_response_success.
  - by rewrite handle_response_raises by lia.
Qed.

(** C10: an argument that is given but false counts as omitted: with
    [message] the empty string an error has the default message of its class,
    and [HttpError] with [code] 0 has the code 500. *)
Theorem falsy_argument_is_omitted :
  (∀ v : Py.value, Py.truthy v = false →
     ClientError___init__ v = ClientError___init__ Py.None_
     ∧ (∀ timeout, Timeout___init__ timeout v = Timeout___init__ timeout Py.None_)
     ∧ (∀ model, Failed___init__ model v = Failed___init__ model Py.None_)
     ∧ (∀ cls code details url method retry_after,
          HttpError___init__ cls code v details url method retry_after
          = HttpError___init__ cls code Py.None_ details url method retry_after)
     ∧ (∀ cls message details url method retry_after,
          HttpError___init__ cls v message details url method retry_after
          = HttpError___init__ cls Py.None_ message details url method retry_after))
  ∧ ce_message (ClientError___init__ (Py.Str "")) = Py.Str "Unknown Error"
  ∧ (∀ timeout,
       to_message (Timeout___init__ timeout (Py.Str ""))
       = Py.Str "Operation timeout exceeded")
  ∧ (∀ model,
       fl_message (Failed___init__ model (Py.Str ""))
       = Py.Str "Operation failed to complete")
  ∧ (∀ cls code details url method retry_after,
       err_message (HttpError___init__ cls code (Py.Str "") details url method retry_after)
       = Py.Str (cls_message cls))
  ∧ (∀ message details url method retry_after,
       err_code (HttpError___init__ HttpError (Py.Int 0) message details url method retry_after)
       = Py.Int 500)
  ∧ (∀ cls message details url method retry_after,
       err_code (HttpError___init__ cls (Py.Int 0) message details url method retry_after)
       = Py.Int (cls_code cls)).
Proof.
  split; [|by repeat (split; [done|])].
  intros v Hv.
  split; [|split; [|split; [|split]]]; intros;
    unfold ClientError___init__, Timeout___init__, Failed___init__,
      HttpError___init__;
    by rewrite (or_falsy v).
Qed.

(** * Further properties of the module *)

(** ** The logging of [__str__] *)

(** X1: every call of [__str__], of each of the four classes, appends one
    record to the log, the string it returns, and keeps the earlier records;
    a second call returns the same string and logs it a second time. *)
Theorem rendering_logs_each_call (log : Log) :
  (∀ e : ClientErrorObj, ∃ s,
     ClientError___str__ e log = (Some s, log ++ [s])
     ∧ ClientError___str__ e (log ++ [s]) = (Some s, log ++ [s; s]))
  ∧ (∀ e : TimeoutObj, ∃ s,
       Timeout___str__ e log = (Some s, log ++ [s])
       ∧ Timeout___str__ e (log ++ [s]) = (Some s, log ++ [s; s]))
  ∧ (∀ e : FailedObj, ∃ s,
       Failed___str__ e log = (Some s, log ++ [s])
       ∧ Failed___str__ e (log ++ [s]) = (Some s, log ++ [s; s]))
  ∧ (∀ e : HttpErrorObj, ∃ s,
       HttpError___str__ e log = (Some s, log ++ [s])
       ∧ HttpError___str__ e (log ++ [s]) = (Some s, log ++ [s; s])).
Proof.
  split; [|split; [|split]]; intros e; eexists.
  - rewrite !ClientError_render. cbv zeta.
    split; [reflexivity | by rewrite <- app_assoc].
  - rewrite !Timeout_render. cbv zeta.
    split; [reflexivity | by rewrite <- app_assoc].
  - rewrite !Failed_render. cbv zeta.
    split; [reflexivity | by rewrite <- app_assoc].
  - rewrite !HttpError_render. cbv zeta.
    split; [reflexivity | by rewrite <- app_assoc].
Qed.

(** ** What the dispatcher raises *)

(** X2: the error raised for a status code from 400 on has the default
    message of its own class, and, when its class is a subclass of
    [HttpError], that class's [code] is the status code, so that the [code]
    of the instance and of its class agree. *)
Theorem raised_error_agrees_with_class (response : Response) :
  (400 ≤ status_code response)%Z →
  ∃ e, (handle_response response).1 = Raise e
       ∧ err_code e = Py.Int (status_code response)
       ∧ err_message e = Py.Str (cls_message (err_class e))
       ∧ (err_class e ≠ HttpError →
          err_code e = Py.Int (cls_code (err_class e))).
Proof.
  intros Hge. rewrite handle_response_raises by done.
  eexists. split; [reflexivity|].
  assert (Py.or_ (Py.Int (status_code response))
            (Py.Int (cls_code (default HttpError
               (_status_to_exception_type !! status_code response))))
          = Py.Int (status_code response)) as Hcode.
  { apply or_truthy, truthy_Int. lia. }
  simpl. rewrite Hcode. split; [done|]. split; [done|].
  destruct (_status_to_exception_type !! status_code response) as [cls|] eqn:Hcls;
    simpl; [|done].
  intros _. by apply registry_lookup_inv in Hcls as [_ ->].
Qed.

Lemma raised_error_agrees_with_class_witness :
  ∃ e, (handle_response response_429).1 = Raise e
       ∧ err_code e = Py.Int 429
       ∧ err_message e = Py.Str (cls_message (err_class e))
       ∧ (err_class e ≠ HttpError →
          err_code e = Py.Int (cls_code (err_class e))).
Proof.
  apply (raised_error_agrees_with_class response_429). simpl. lia.
Defined.

(** X3: which class is raised, in full: for a status code from 400 on the
    class of the raised error is [cls] exactly when [cls] is a subclass whose
    [code] is the status code, or [cls] is [HttpError] itself and no
    subclass has that [code]. *)
Theorem raised_class_characterised (response : Response) (cls : HttpKind) :
  (400 ≤ status_code response)%Z →
  ∃ e, (handle_response response).1 = Raise e
       ∧ (err_class e = cls
          ↔ (cls ∈ HttpError___subclasses__ ∧ cls_code cls = status_code response)
            ∨ (cls = HttpError
               ∧ status_code response ∉ cls_code <$> HttpError___subclasses__)).
Proof.
  intros Hge. rewrite handle_response_raises by done.
  eexists. split; [reflexivity|]. cbn [err_class HttpError___init__].
  destruct (_status_to_exception_type !! status_code response) as [c|] eqn:Hc;
    cbn [from_option id].
  - pose proof (registry_lookup_inv _ _ Hc) as [Hin Hcode]. split.
    + intros <-. by left.
    + intros [[Hcls Heq] | [_ Hnot]].
      * apply registry_lookup_subclass in Hcls. rewrite Heq in Hcls. congruence.
      * destruct Hnot. apply list_elem_of_fmap. by exists c.
  - split.
    + intros <-. right. split; [done|].
      intros (c & Hcode & Hin)%list_elem_of_fmap.
      apply registry_lookup_subclass in Hin. rewrite <- Hcode in Hin. congruence.
    + intros [[Hcls Heq] | [-> _]]; [|done].
      apply registry_lookup_subclass in Hcls. rewrite Heq in Hcls. congruence.
Qed.

Lemma raised_class_characterised_witness :
  ∃ e, (handle_response response_418).1 = Raise e
       ∧ (err_class e = HttpError
          ↔ (HttpError ∈ HttpError___subclasses__ ∧ cls_code HttpError = 418%Z)
            ∨ (HttpError = HttpError
               ∧ 418%Z ∉ cls_code <$> HttpError___subclasses__)).
Proof.
  apply (raised_class_characterised response_418 HttpError). simpl. lia.
Defined.

(** X4: rendering the error that the dispatcher raises gives
    "HTTP request failed for <method> <url>: <default message of the raised
    class> <status code>: <text>", and logs that string once. *)
Theorem raised_error_rendering (response : Response) (log : Log) :
  (400 ≤ status_code response)%Z →
  ∃ e m, (handle_response response).1 = Raise e
         ∧ m = "HTTP request failed for "
               +:+ Py.str (request_method (request response))
               +:+ " " +:+ Py.str (request_url (request response))
               +:+ ": " +:+ cls_message (err_class e)
               +:+ " " +:+ pretty (status_code response)
               +:+ ": " +:+ Py.str (text response)
         ∧ HttpError___str__ e log = (Some m, log ++ [m]).
Proof.
  intros Hge. rewrite handle_response_raises by done.
  eexists _, _. split; [reflexivity|]. split; [reflexivity|].
  rewrite HttpError_render.
  cbn [err_class err_code err_message err_details err_url err_method
       HttpError___init__].
  rewrite (or_truthy (Py.Int (status_code response)))
    by (apply truthy_Int; lia).
  by rewrite or_None.
Qed.

Lemma raised_error_rendering_witness :
  ∃ e m, (handle_response response_404).1 = Raise e
         ∧ m = "HTTP request failed for GET http://atlas/api/entities/1: "
               +:+ cls_message (err_class e) +:+ " 404: no such entity"
         ∧ HttpError___str__ e [] = (Some m, [m]).
Proof.
  destruct (raised_error_rendering response_404 []) as (e & m & He & Hm & Hs).
  - simpl. lia.
  - exists e, m. split; [exact He|]. split; [exact Hm | exact Hs].
Defined.

(** ** The construction of the registry *)

(** The dictionary built from a list of pairs holds what [list_to_map] holds
    for the pairs taken from the last to the first. *)
Lemma dict_of_pairs_list_to_map {K V} `{Countable K} (pairs : list (K * V)) :
  dict_of_pairs pairs = list_to_map (reverse pairs).
Proof.
  unfold dict_of_pairs.
  induction pairs as [|[k v] pairs IH] using rev_ind; [done|].
  rewrite foldl_snoc, reverse_snoc, IH. done.
Qed.


(** X5: the registry does not depend on the order in which
    [HttpError.__subclasses__()] lists the subclasses: built from any
    rearrangement of them it is the same dictionary. *)
Theorem registry_order_irrelevant (classes : list HttpKind) :
  classes ≡ₚ HttpError___subclasses__ →
  dict_of_pairs ((λ c, (cls_code c, c)) <$> classes) = _status_to_exception_type.
Proof.
  intros Hperm. unfold _status_to_exception_type.
  rewrite !dict_of_pairs_list_to_map. apply list_to_map_proper.
  - rewrite reverse_Permutation, <- list_fmap_compose, Hperm.
    apply (bool_decide_unpack _). vm_compute. exact I.
  - by rewrite !reverse_Permutation, Hperm.
Qed.

Lemma registry_order_irrelevant_witness :
  dict_of_pairs ((λ c, (cls_code c, c)) <$> reverse HttpError___subclasses__)
  = _status_to_exception_type.
Proof.
  apply (registry_order_irrelevant (reverse HttpError___subclasses__)).
  apply reverse_Permutation.
Defined.

(** ** The constructors *)

(** X6: whatever the arguments, the [message] of a constructed error, and the
    [code] of an [HttpError] of any class, is never a false value: a false
    argument gives way to the class default, and no class default is
    false. *)
Theorem constructed_fields_truthy :
  (∀ message, Py.truthy (ce_message (ClientError___init__ message)) = true)
  ∧ (∀ timeout message,
       Py.truthy (to_message (Timeout___init__ timeout message)) = true)
  ∧ (∀ model message,
       Py.truthy (fl_message (Failed___init__ model message)) = true)
  ∧ (∀ cls code message details url method retry_after,
       Py.truthy (err_code (HttpError___init__ cls code message details url
                              method retry_after)) = true
       ∧ Py.truthy (err_message (HttpError___init__ cls code message details url
                                   method retry_after)) = true).
Proof.
  split; [|split; [|split]]; intros; cbn -[Py.truthy]; unfold Py.or_.
  - by destruct (Py.truthy message) eqn:Hm.
  - by destruct (Py.truthy message) eqn:Hm.
  - by destruct (Py.truthy message) eqn:Hm.
  - split.
    + destruct (Py.truthy code) eqn:Hc; [done|]. by destruct cls.
    + destruct (Py.truthy message) eqn:Hm; [done|]. by destruct cls.
Qed.

(** X7: an [HttpError] of any class constructed without arguments renders
    its absent [method], [url] and [details] as "None", between the default
    message and code of the class. *)
Theorem default_instance_rendering (cls : HttpKind) (log : Log) :
  (HttpError___str__ (HttpError_call cls ∅) log).1
  = Some ("HTTP request failed for None None: " +:+ cls_message cls
          +:+ " " +:+ pretty (cls_code cls) +:+ ": None").
Proof. rewrite HttpError_render. by destruct cls. Qed.

(** ** The headers the dispatcher looks at *)

Lemma retry_after_of_setitem_other (k v : string) (h : CaseInsensitiveDict.t) :
  Py.lower k ≠ "retry-after" →
  retry_after_of (Some (CaseInsensitiveDict.__setitem__ k v h))
  = retry_after_of (Some h).
Proof.
  intros Hk.
  unfold retry_after_of, headers_truthy, headers_contains, headers_get.
  unfold CaseInsensitiveDict.__contains__, CaseInsensitiveDict.get,
    CaseInsensitiveDict.__getitem__.
  rewrite lower_retry_after. cbn [CaseInsensitiveDict.__setitem__
    CaseInsensitiveDict._store].
  rewrite lookup_insert_ne by done.
  destruct (CaseInsensitiveDict._store h !! "retry-after") as [[k' v']|] eqn:Hlk;
    cbn [fmap option_fmap option_map snd]; [|by rewrite !andb_false_r].
  assert (∀ d, CaseInsensitiveDict._store d ≠ ∅ →
               CaseInsensitiveDict.truthy d = true) as Ht.
  { intros d Hd. unfold CaseInsensitiveDict.truthy, CaseInsensitiveDict.__len__.
    apply negb_true_iff, Nat.eqb_neq. by rewrite map_size_empty_iff. }
  rewrite !Ht; [done|..].
  - intros Hemp. by rewrite Hemp, lookup_empty in Hlk.
  - cbn. apply insert_non_empty.
Qed.

(** X8: a header other than [retry-after] has no part in what the dispatcher
    does: two responses with the same status code, text and request, the
    headers of the second being those of the first with one more header set
    whose name is not [retry-after] in any casing, have the same outcome. *)
Theorem other_headers_irrelevant
    (r1 r2 : Response) (h : CaseInsensitiveDict.t) (k v : string) :
  status_code r2 = status_code r1 →
  text r2 = text r1 →
  request r2 = request r1 →
  headers r1 = Some h →
  headers r2 = Some (CaseInsensitiveDict.__setitem__ k v h) →
  Py.lower k ≠ "retry-after" →
  (handle_response r2).1 = (handle_response r1).1.
Proof.
  intros Hs Ht Hr Hh1 Hh2 Hk.
  destruct (decide (status_code r1 < 400)%Z) as [Hlt | Hge].
  - by rewrite !handle_response_success by lia.
  - rewrite !handle_response_raises by lia.
    rewrite Hs, Ht, Hr, Hh1, Hh2. by rewrite retry_after_of_setitem_other.
Qed.

Lemma other_headers_irrelevant_witness :
  (handle_response
     {| status_code := 429;
        text := Py.Str "slow down";
        headers := Some (CaseInsensitiveDict.__setitem__ "X-Request-Id" "17"
                           (CaseInsensitiveDict.__init__
                              [("Content-Type", "text/plain");
                               ("Retry-After", "120")]));
        request := {| request_method := Py.Str "GET";
                      request_url := Py.Str "http://atlas/api/types" |} |}).1
  = (handle_response response_429).1.
Proof.
  eapply (other_headers_irrelevant response_429 _ _ "X-Request-Id" "17");
    try reflexivity.
  vm_compute. discriminate.
Defined.
